(** * Slope computation and vectorization: the [slopealg] processing script

    A shallow embedding of [slopepkgalg.py].  The script is an orchestrator:
    it calls five geoprocessing algorithms of the host through
    [processing.run], polls [feedback.isCanceled()] after each of them and
    reports progress with [feedback.setProgressText].  The host is a
    parameter of the model; every interaction with it is recorded in a trace,
    and the theorems are statements about the traces and results of all runs. *)

From Stdlib Require Import Floats ZArith Ascii String.
From Stdlib Require Uint63.
From stdpp Require Import base option list gmap strings.

Set Warnings "-register-all".

(** ** Python values *)

(** The values the script handles: it forwards them between dictionaries and
    compares the two grain sizes with [!=]. *)
Inductive pyval : Type :=
| PyNone
| PyBool (b : bool)
| PyInt (z : Z)
| PyFloat (f : float)
| PyStr (s : string)
| PyLayers (l : list string).

(** A Python [dict] with string keys, used for lookups. *)
Abbreviation dict := (gmap string pyval).

(** A [dict] display as the script writes it, [{'K': v, ...}], in source order. *)
Abbreviation kwargs := (list (string * pyval)).

Inductive exn : Type :=
| KeyError (key : string)
| QgsProcessingException (msg : string).

Module Py.

(** The mathematical value of a binary64 number, when it is an integer. *)
Definition float_eq_Z (f : float) (z : Z) : bool :=
  match Prim2SF f with
  | S754_zero _ => (z =? 0)%Z
  | S754_finite s m e =>
      let mz := if s then Z.neg m else Z.pos m in
      if (0 <=? e)%Z then (z =? mz * 2 ^ e)%Z
      else ((mz mod 2 ^ (- e) =? 0) && (z =? mz / 2 ^ (- e)))%Z
  | S754_infinity _ | S754_nan => false
  end.

(** [a == b]: numbers ([bool], [int], [float]) compare by value, floats
    among themselves as IEEE 754 says; values of unrelated types differ. *)
Definition eq (a b : pyval) : bool :=
  match a, b with
  | PyNone, PyNone => true
  | PyBool x, PyBool y => Bool.eqb x y
  | PyBool x, PyInt y | PyInt y, PyBool x => (Z.b2z x =? y)%Z
  | PyBool x, PyFloat y | PyFloat y, PyBool x => float_eq_Z y (Z.b2z x)
  | PyInt x, PyInt y => (x =? y)%Z
  | PyInt x, PyFloat y | PyFloat y, PyInt x => float_eq_Z y x
  | PyFloat x, PyFloat y => PrimFloat.eqb x y
  | PyStr x, PyStr y => String.eqb x y
  | PyLayers x, PyLayers y => bool_decide (x = y)
  | _, _ => false
  end.

(** [a != b] *)
Definition ne (a b : pyval) : bool := negb (eq a b).

(** [{'K': v, ...}['K']] on a display without repeated keys. *)
Fixpoint assoc (k : string) (d : kwargs) : option pyval :=
  match d with
  | [] => None
  | (k', v) :: d' => if String.eqb k k' then Some v else assoc k d'
  end.

End Py.

(** ** The raster calculator *)

(** Modelled from the spec: the raster calculator that evaluates the formula
    of the classification step, cell by cell, belongs to the host and not to
    the script.  The spec reads the formula as a sum of six boolean
    threshold tests, a test that holds counting for one: [gt(x,y)], [eq(x,y)]
    and [or(x,y)] are 1 when x > y, x = y, and x or y is not 0, and are 0
    otherwise; [+] adds; [a] is the value of the cell.  Cell values are
    binary64 numbers. *)
Module Saga.

Inductive token : Type :=
| TNum (n : Z)
| TName (s : string)
| TOpen
| TClose
| TComma
| TPlus.

Inductive expr : Type :=
| Num (n : Z)
| Var (x : string)
| Call (f : string) (args : list expr)
| Add (l r : expr).

(** The number or name the lexer is in the middle of. *)
Inductive pending : Type :=
| Idle
| Digits (n : Z)
| Letters (s : string).

Definition flush (p : pending) : list token :=
  match p with
  | Idle => []
  | Digits n => [TNum n]
  | Letters s => [TName s]
  end.

Definition digit (c : ascii) : option Z :=
  let n := Z.of_nat (nat_of_ascii c) in
  if ((48 <=? n) && (n <=? 57))%Z then Some (n - 48)%Z else None.

Definition letter (c : ascii) : bool :=
  let n := Z.of_nat (nat_of_ascii c) in
  (((65 <=? n) && (n <=? 90)) || ((97 <=? n) && (n <=? 122)))%Z.

Definition blank (c : ascii) : bool :=
  let n := Z.of_nat (nat_of_ascii c) in
  ((n =? 32) || (n =? 9) || (n =? 10) || (n =? 13))%Z.

Definition punctuation (c : ascii) : option token :=
  if Ascii.eqb c "("%char then Some TOpen
  else if Ascii.eqb c ")"%char then Some TClose
  else if Ascii.eqb c ","%char then Some TComma
  else if Ascii.eqb c "+"%char then Some TPlus
  else None.

Fixpoint lex (s : string) (p : pending) : option (list token) :=
  match s with
  | EmptyString => Some (flush p)
  | String c s' =>
      match digit c, p with
      | Some d, Idle => lex s' (Digits d)
      | Some d, Digits n => lex s' (Digits (10 * n + d))
      | Some d, Letters x => lex s' (Letters (x +:+ String c EmptyString))
      | None, _ =>
          if letter c then
            match p with
            | Idle => lex s' (Letters (String c EmptyString))
            | Letters x => lex s' (Letters (x +:+ String c EmptyString))
            | Digits _ => None
            end
          else if blank c then app (flush p) <$> lex s' Idle
          else
            t ← punctuation c;
            ts ← lex s' Idle;
            Some (flush p ++ t :: ts)
      end
  end.

(** Sums of terms; a term is a number, a variable, a call [f(e, ..., e)]
    or a sum in parentheses. *)
Fixpoint parse_expr (fuel : nat) (ts : list token)
    : option (expr * list token) :=
  match fuel with
  | 0 => None
  | S fuel =>
      '(e, ts) ← parse_term fuel ts;
      parse_sum fuel e ts
  end
with parse_sum (fuel : nat) (l : expr) (ts : list token)
    : option (expr * list token) :=
  match ts, fuel with
  | TPlus :: ts, S fuel =>
      '(r, ts) ← parse_term fuel ts;
      parse_sum fuel (Add l r) ts
  | TPlus :: _, 0 => None
  | _, _ => Some (l, ts)
  end
with parse_term (fuel : nat) (ts : list token)
    : option (expr * list token) :=
  match ts, fuel with
  | TNum n :: ts, _ => Some (Num n, ts)
  | TName f :: TOpen :: ts, S fuel =>
      '(args, ts) ← parse_args fuel ts;
      Some (Call f args, ts)
  | TName x :: ts, _ => Some (Var x, ts)
  | TOpen :: ts, S fuel =>
      '(e, ts) ← parse_expr fuel ts;
      match ts with
      | TClose :: ts => Some (e, ts)
      | _ => None
      end
  | _, _ => None
  end
with parse_args (fuel : nat) (ts : list token)
    : option (list expr * list token) :=
  match fuel with
  | 0 => None
  | S fuel =>
      '(e, ts) ← parse_expr fuel ts;
      match ts with
      | TClose :: ts => Some ([e], ts)
      | TComma :: ts =>
          '(es, ts) ← parse_args fuel ts;
          Some (e :: es, ts)
      | _ => None
      end
  end.

(** A whole formula; the fuel covers every token twice over. *)
Definition parse (s : string) : option expr :=
  ts ← lex s Idle;
  '(e, rest) ← parse_expr (2 * length ts) ts;
  match rest with
  | [] => Some e
  | _ => None
  end.

(** A whole-number literal as a cell value. *)
Definition number (n : Z) : float := PrimFloat.of_uint63 (Uint63.of_Z n).

(** A test that holds counts for one. *)
Definition truth (b : bool) : float := if b then 1%float else 0%float.

Definition gt (x y : float) : float := truth (PrimFloat.ltb y x).
Definition eq (x y : float) : float := truth (PrimFloat.eqb x y).
Definition or (x y : float) : float :=
  truth (negb (PrimFloat.eqb x 0) || negb (PrimFloat.eqb y 0)).

Fixpoint eval (e : expr) (a : float) : option float :=
  match e with
  | Num n => Some (number n)
  | Var x => if String.eqb x "a" then Some a else None
  | Add l r =>
      x ← eval l a;
      y ← eval r a;
      Some (x + y)%float
  | Call f [l; r] =>
      x ← eval l a;
      y ← eval r a;
      if String.eqb f "gt" then Some (gt x y)
      else if String.eqb f "eq" then Some (eq x y)
      else if String.eqb f "or" then Some (or x y)
      else None
  | Call _ _ => None
  end.

(** Modelled from the spec: the value the calculator gives a cell of value
    [a] under [formula], when the formula is well formed. *)
Definition calculate (formula : string) (a : float) : option float :=
  e ← parse formula;
  eval e a.

End Saga.

(** ** The host: QGIS processing and the feedback object *)

(** [processing_run alg params] is
    [processing.run(alg, params, is_child_algorithm=True, context=context,
    feedback=feedback)]: it returns the algorithm's result dictionary or
    raises.  [isCanceled] and [setProgressText] are the two methods of
    [feedback] the script calls.  [W] is the state of the world they act on. *)
Record host (W : Type) : Type := Host {
  processing_run : string -> kwargs -> W -> (exn + dict) * W;
  isCanceled : W -> bool * W;
  setProgressText : string -> W -> W
}.
Arguments Host {W}.
Arguments processing_run {W}.
Arguments isCanceled {W}.
Arguments setProgressText {W}.

(** What a run does to the host, in order. *)
Inductive event : Type :=
| EvRun (alg : string) (params : kwargs) (out : exn + dict)
| EvIsCanceled (b : bool)
| EvProgressText (s : string).

(** ** Reading a trace *)

(** The algorithms invoked. *)
Definition stages (t : list event) : list string :=
  omap (fun e => match e with EvRun alg _ _ => Some alg | _ => None end) t.

(** The algorithms that returned a result. *)
Definition completed (t : list event) : list string :=
  omap (fun e => match e with EvRun alg _ (inr _) => Some alg | _ => None end) t.

(** The algorithms that raised. *)
Definition failures (t : list event) : list (string * exn) :=
  omap (fun e => match e with EvRun alg _ (inl x) => Some (alg, x) | _ => None end) t.

(** The answers of [feedback.isCanceled()]. *)
Definition polls (t : list event) : list bool :=
  omap (fun e => match e with EvIsCanceled b => Some b | _ => None end) t.

(** The progress texts. *)
Definition messages (t : list event) : list string :=
  omap (fun e => match e with EvProgressText s => Some s | _ => None end) t.

(** The calls with their parameter displays. *)
Definition calls (t : list event) : list (string * kwargs) :=
  omap (fun e => match e with EvRun alg ps _ => Some (alg, ps) | _ => None end) t.

(** ** The script *)

(** The formula of the raster calculator call.  The literal is continued over
    six lines with a backslash, so each continuation line contributes its
    indentation of twelve blanks. *)
Definition FORMULA : string :=
  "(or(gt(a,0),eq(a,0)))+            (or(gt(a,5),eq(a,5)))+            (or(gt(a,10),eq(a,10)))+            (or(gt(a,15),eq(a,15)))+            (or(gt(a,20),eq(a,20)))+            (or(gt(a,30),eq(a,30)))".

Definition EXTENT : string :=
  "TARGET_USER_XMIN TARGET_USER_XMAX TARGET_USER_YMIN TARGET_USER_YMAX".

Section Script.

Context {W : Type} (h : host W).

(** The world and the trace so far. *)
Definition state : Type := W * list event.

(** Computations that act on the host and may raise. *)
Definition M (A : Type) : Type := state -> (exn + A) * state.

Definition ret {A} (a : A) : M A := fun s => (inr a, s).

Definition raise {A} (x : exn) : M A := fun s => (inl x, s).

Definition bind {A B} (m : M A) (k : A -> M B) : M B :=
  fun s =>
    match m s with
    | (inl x, s') => (inl x, s')
    | (inr a, s') => k a s'
    end.

Notation "x <- m ;; k" := (bind m (fun x => k))
  (at level 100, m at next level, right associativity).
Notation "m ;;; k" := (bind m (fun _ => k))
  (at level 100, right associativity).

(** [d[k]] *)
Definition getitem (d : dict) (k : string) : M pyval :=
  match d !! k with
  | Some v => ret v
  | None => raise (KeyError k)
  end.

Definition run (alg : string) (params : kwargs) : M dict :=
  fun '(w, t) =>
    let '(out, w') := processing_run h alg params w in
    (out, (w', t ++ [EvRun alg params out])).

Definition feedback_isCanceled : M bool :=
  fun '(w, t) =>
    let '(b, w') := isCanceled h w in
    (inr b, (w', t ++ [EvIsCanceled b])).

Definition feedback_setProgressText (s : string) : M unit :=
  fun '(w, t) => (inr tt, (setProgressText h s w, t ++ [EvProgressText s])).

(** The five parameter displays, each with its entries in source order. *)

Definition mosaic_params (grids size out : pyval) : kwargs :=
  [("GRIDS", grids); ("NAME", PyStr "Mosaic"); ("TYPE", PyInt 7);
   ("RESAMPLING", PyInt 1); ("OVERLAP", PyInt 4); ("BLEND_DIST", PyInt 8);
   ("MATCH", PyInt 0); (EXTENT, PyNone); ("TARGET_USER_SIZE", size);
   ("TARGET_USER_FITS", PyInt 1); ("TARGET_OUT_GRID", out)].

Definition resampling_params (input size out : pyval) : kwargs :=
  [("INPUT", input); ("KEEP_TYPE", PyBool true); ("SCALE_UP", PyInt 3);
   ("SCALE_DOWN", PyInt 3); (EXTENT, PyNone); ("TARGET_USER_SIZE", size);
   ("TARGET_USER_FITS", PyInt 1); ("TARGET_TEMPLATE", PyNone);
   ("OUTPUT", out)].

Definition slope_params (input out : pyval) : kwargs :=
  [("INPUT", input); ("BAND", PyInt 1); ("SCALE", PyInt 1);
   ("AS_PERCENT", PyBool true); ("COMPUTE_EDGES", PyBool false);
   ("ZEVENBERGEN", PyBool false); ("OPTIONS", PyStr "");
   ("EXTRA", PyStr ""); ("OUTPUT", out)].

Definition rastercalculator_params (grids out : pyval) : kwargs :=
  [("GRIDS", grids); ("XGRIDS", PyStr ""); ("FORMULA", PyStr FORMULA);
   ("RESAMPLING", PyInt 3); ("USE_NODATA", PyBool false); ("TYPE", PyInt 7);
   ("RESULT", out)].

Definition polygonize_params (input out : pyval) : kwargs :=
  [("INPUT", input); ("BAND", PyInt 1); ("FIELD", PyStr "class");
   ("EIGHT_CONNECTEDNESS", PyBool false); ("EXTRA", PyStr "");
   ("OUTPUT", out)].

(** The part of the script after the slope has been classified. *)
Definition vectorize (parameters mosaicked_result : dict)
    (resampled_output slope_output classed_slope_output : pyval) : M dict :=
  out <- getitem parameters "VECTORSLOPE" ;;
  vector_slope_result <-
    run "gdal:polygonize" (polygonize_params classed_slope_output out) ;;
  canceled <- feedback_isCanceled ;;
  if canceled : bool then ret ∅ else
  feedback_setProgressText "Slope vectorized" ;;;
  mosaicked <- getitem mosaicked_result "TARGET_OUT_GRID" ;;
  vector_slope <- getitem vector_slope_result "OUTPUT" ;;
  ret (<["MOSAICKED" := mosaicked]>
       (<["RESAMPLED" := resampled_output]>
        (<["SLOPE" := slope_output]>
         (<["CLASSEDSLOPE" := classed_slope_output]>
          (<["VECTORSLOPE" := vector_slope]> ∅))))).

(** The part of the script after the slope has been computed. *)
Definition classify (parameters mosaicked_result : dict)
    (resampled_output slope_output : pyval) : M dict :=
  out <- getitem parameters "CLASSEDSLOPE" ;;
  classed_slope_result <-
    run "saga:rastercalculator" (rastercalculator_params slope_output out) ;;
  classed_slope_output <- getitem classed_slope_result "RESULT" ;;
  canceled <- feedback_isCanceled ;;
  if canceled : bool then ret ∅ else
  feedback_setProgressText "Slope classified" ;;;
  vectorize parameters mosaicked_result resampled_output slope_output
    classed_slope_output.

(** The part of the script after the resampling step. *)
Definition slope (parameters mosaicked_result : dict)
    (resampled_output : pyval) : M dict :=
  canceled <- feedback_isCanceled ;;
  if canceled : bool then ret ∅ else
  feedback_setProgressText "Resampling finished" ;;;
  out <- getitem parameters "SLOPE" ;;
  slope_result <- run "gdal:slope" (slope_params resampled_output out) ;;
  slope_output <- getitem slope_result "OUTPUT" ;;
  canceled <- feedback_isCanceled ;;
  if canceled : bool then ret ∅ else
  feedback_setProgressText "Slope calculated" ;;;
  classify parameters mosaicked_result resampled_output slope_output.

(** The resampling step: the mosaic is resampled when the grains differ and
    forwarded as it is otherwise. *)
Definition resample (parameters mosaicked_result : dict) : M pyval :=
  original <- getitem parameters "ORIGINALGRAIN" ;;
  desired <- getitem parameters "DESIREDGRAIN" ;;
  if Py.ne original desired then
    input <- getitem mosaicked_result "TARGET_OUT_GRID" ;;
    size <- getitem parameters "DESIREDGRAIN" ;;
    out <- getitem parameters "RESAMPLED" ;;
    resampled_result <-
      run "saga:resampling" (resampling_params input size out) ;;
    getitem resampled_result "OUTPUT"
  else
    getitem mosaicked_result "TARGET_OUT_GRID".

Definition slopealg (parameters : dict) : M dict :=
  grids <- getitem parameters "INPUT" ;;
  size <- getitem parameters "ORIGINALGRAIN" ;;
  out <- getitem parameters "MOSAICKED" ;;
  mosaicked_result <-
    run "saga:mosaicrasterlayers" (mosaic_params grids size out) ;;
  canceled <- feedback_isCanceled ;;
  if canceled : bool then ret ∅ else
  feedback_setProgressText "Mosaicking finished" ;;;
  resampled_output <- resample parameters mosaicked_result ;;
  slope parameters mosaicked_result resampled_output.

(** A run from a world [w]: the result or the exception, the world it
    leaves and the trace. *)
Definition result (parameters : dict) (w : W) : exn + dict :=
  (slopealg parameters (w, [])).1.

Definition world (parameters : dict) (w : W) : W :=
  (slopealg parameters (w, [])).2.1.

Definition trace (parameters : dict) (w : W) : list event :=
  (slopealg parameters (w, [])).2.2.

End Script.

(** ** The vocabulary of the claims *)

(** The five algorithms, in the order of the script. *)
Definition STAGES : list string :=
  ["saga:mosaicrasterlayers"; "saga:resampling"; "gdal:slope";
   "saga:rastercalculator"; "gdal:polygonize"].

(** The five progress texts, in the order of the script. *)
Definition PROGRESS : list string :=
  ["Mosaicking finished"; "Resampling finished"; "Slope calculated";
   "Slope classified"; "Slope vectorized"].

(** The thresholds of the slope classes, in percent. *)
Definition THRESHOLDS : list float := [0; 5; 10; 15; 20; 30]%float.

(** The number of thresholds a slope reaches. *)
Definition class_code (v : float) : nat :=
  length (List.filter (fun t => PrimFloat.leb t v) THRESHOLDS).

(** The keys of the result of a complete run. *)
Definition ARTIFACTS : list string :=
  ["MOSAICKED"; "RESAMPLED"; "SLOPE"; "CLASSEDSLOPE"; "VECTORSLOPE"].

(** The parameters the script is declared with. *)
Definition INPUTS : list string :=
  ["INPUT"; "MOSAICKED"; "RESAMPLED"; "SLOPE"; "CLASSEDSLOPE"; "VECTORSLOPE";
   "ORIGINALGRAIN"; "DESIREDGRAIN"].

(** The key under which the script reads the output of each algorithm. *)
Definition output_key (alg : string) : string :=
  if String.eqb alg "saga:mosaicrasterlayers" then "TARGET_OUT_GRID"
  else if String.eqb alg "saga:rastercalculator" then "RESULT"
  else "OUTPUT".

(** The key under which the script hands each algorithm its input. *)
Definition input_key (alg : string) : string :=
  if String.eqb alg "saga:mosaicrasterlayers" then "GRIDS"
  else if String.eqb alg "saga:rastercalculator" then "GRIDS"
  else "INPUT".

(** The outputs the algorithms of a run returned, each with its algorithm. *)
Definition outputs (t : list event) : kwargs :=
  omap (fun e =>
          match e with
          | EvRun alg _ (inr m) => pair alg <$> m !! output_key alg
          | _ => None
          end) t.

(** The inputs the algorithms of a run were handed. *)
Definition inputs (t : list event) : list pyval :=
  omap (fun e =>
          match e with
          | EvRun alg ps _ => Py.assoc (input_key alg) ps
          | _ => None
          end) t.

(** Whether the script takes the resampling branch: [parameters] holds two
    grains and they compare different. *)
Definition grains_differ (parameters : dict) : bool :=
  match parameters !! "ORIGINALGRAIN", parameters !! "DESIREDGRAIN" with
  | Some original, Some desired => Py.ne original desired
  | _, _ => false
  end.

(** The first [k] stages of the pipeline, resampling left out when the
    grains are equal. *)
Definition first_stages (parameters : dict) (k : nat) : list string :=
  filter (fun alg => alg ≠ "saga:resampling" \/ grains_differ parameters = true)
    (take k STAGES).

(** The display the script hands to [alg]: the entries other than the input
    are constants and parameters of the script. *)
Definition params_of (parameters : dict) (alg : string) (input : pyval)
    : kwargs :=
  let arg k := default PyNone (parameters !! k) in
  if String.eqb alg "saga:mosaicrasterlayers" then
    mosaic_params input (arg "ORIGINALGRAIN") (arg "MOSAICKED")
  else if String.eqb alg "saga:resampling" then
    resampling_params input (arg "DESIREDGRAIN") (arg "RESAMPLED")
  else if String.eqb alg "gdal:slope" then
    slope_params input (arg "SLOPE")
  else if String.eqb alg "saga:rastercalculator" then
    rastercalculator_params input (arg "CLASSEDSLOPE")
  else
    polygonize_params input (arg "VECTORSLOPE").

(** The calls of a pipeline that hands [source] to its first stage and the
    output of each stage to the next one. *)
Definition chained (parameters : dict) (algs : list string)
    (source : pyval) (outs : list pyval) : list (string * kwargs) :=
  zip_with (fun alg input => (alg, params_of parameters alg input))
    algs (source :: outs).

Arguments params_of : simpl never.
Arguments chained : simpl never.
Arguments first_stages : simpl never.
Arguments grains_differ : simpl never.

(** Every algorithm of the run returned a result that holds its output. *)
Definition stage_ok (e : event) : bool :=
  match e with
  | EvRun alg _ (inr m) => bool_decide (is_Some (m !! output_key alg))
  | EvRun _ _ (inl _) => false
  | _ => true
  end.

(** The shape of a trace at the stage boundaries: an algorithm that returned
    its output is followed at once by a poll; a poll that answers [False] is
    followed at once by one progress text, and progress texts occur nowhere
    else; a poll that answers [True] is the last event. *)
Fixpoint boundaries (t : list event) : bool :=
  match t with
  | [] => true
  | EvRun alg _ out :: t' =>
      match out, t' with
      | inr m, EvIsCanceled _ :: _ => boundaries t'
      | inr m, _ => negb (bool_decide (is_Some (m !! output_key alg)))
                    && boundaries t'
      | inl _, _ => boundaries t'
      end
  | EvIsCanceled true :: t' => bool_decide (t' = [])
  | EvIsCanceled false :: t' =>
      match t' with
      | EvProgressText _ :: t'' => boundaries t''
      | _ => false
      end
  | EvProgressText _ :: _ => false
  end.

(** ** The declaration of the algorithm *)

(** The decorators of [slopealg]: [@alg(...)] names the algorithm and each
    [@alg.input(...)] declares one parameter. *)
Module Alg.

Inductive kind : Type :=
| MULTILAYER
| RASTER_LAYER_DEST
| VECTOR_LAYER_DEST
| NUMBER.

Record input : Type := Input {
  type : kind;
  name : string;
  label : string;
  default : option pyval
}.

Definition inputs : list input :=
  [Input MULTILAYER "INPUT" "Input DEM(s)" None;
   Input RASTER_LAYER_DEST "MOSAICKED" "Mosaicked DEM (save as .sdat)" None;
   Input RASTER_LAYER_DEST "RESAMPLED" "Resampled DEM (save as .sdat)" None;
   Input RASTER_LAYER_DEST "SLOPE" "Slope (save as .tif)" None;
   Input RASTER_LAYER_DEST "CLASSEDSLOPE" "Classed slope (save as .sdat)" None;
   Input VECTOR_LAYER_DEST "VECTORSLOPE" "Vectorized slope (save as .shp)"
     None;
   Input NUMBER "ORIGINALGRAIN" "Input DEM grain (m)" (Some (PyFloat 1));
   Input NUMBER "DESIREDGRAIN" "Desired grain (m)" (Some (PyFloat 2))].

(** Whether a parameter is the destination of an output layer. *)
Definition is_dest (i : input) : bool :=
  match type i with
  | RASTER_LAYER_DEST | VECTOR_LAYER_DEST => true
  | MULTILAYER | NUMBER => false
  end.

(** The names of the declared parameters. *)
Definition names : list string := name <$> inputs.

(** The names of the declared destinations. *)
Definition destinations : list string := name <$> List.filter is_dest inputs.

(** The parameters that have a default, bound to it. *)
Definition defaults : dict :=
  list_to_map (omap (fun i => pair (name i) <$> default i) inputs).

End Alg.

(** The first key of [keys] that [parameters] does not hold. *)
Definition first_missing (parameters : dict) (keys : list string)
    : option string :=
  List.find (fun k => bool_decide (parameters !! k = None)) keys.

(** The parameters the script has looked up by the time it invokes [alg]. *)
Definition reads (alg : string) : list string :=
  if String.eqb alg "saga:mosaicrasterlayers" then
    ["INPUT"; "ORIGINALGRAIN"; "MOSAICKED"]
  else if String.eqb alg "saga:resampling" then
    ["INPUT"; "ORIGINALGRAIN"; "MOSAICKED"; "DESIREDGRAIN"; "RESAMPLED"]
  else if String.eqb alg "gdal:slope" then
    ["INPUT"; "ORIGINALGRAIN"; "MOSAICKED"; "DESIREDGRAIN"; "SLOPE"]
  else if String.eqb alg "saga:rastercalculator" then
    ["INPUT"; "ORIGINALGRAIN"; "MOSAICKED"; "DESIREDGRAIN"; "SLOPE";
     "CLASSEDSLOPE"]
  else
    ["INPUT"; "ORIGINALGRAIN"; "MOSAICKED"; "DESIREDGRAIN"; "SLOPE";
     "CLASSEDSLOPE"; "VECTORSLOPE"].

Arguments reads : simpl never.

(** The formula as the calculator parses it. *)
Definition formula_ast : option Saga.expr :=
  Eval vm_compute in Saga.parse FORMULA.

(** ** A simulated host

    A host to run the script on: each algorithm writes the destination it is
    given and returns it under its output key, unless it is listed as broken;
    the user may have canceled from the start, or cancels while the [n]-th
    algorithm from now is running. *)
Module Sim.

Record world : Type := World {
  canceled : bool;
  patience : option nat;
  broken : list string;
  files : list pyval;
  texts : list string
}.

(** The user's hand on the cancel button while an algorithm runs. *)
Definition user (w : world) : world :=
  match patience w with
  | Some 0 => World true None (broken w) (files w) (texts w)
  | Some (S n) => World (canceled w) (Some n) (broken w) (files w) (texts w)
  | None => w
  end.

Definition processing_run (alg : string) (params : kwargs) (w : world)
    : (exn + dict) * world :=
  if bool_decide (alg ∈ broken w) then
    (inl (QgsProcessingException alg), user w)
  else
    match Py.assoc (output_key alg) params with
    | Some dest =>
        (inr {[ output_key alg := dest ]},
         user (World (canceled w) (patience w) (broken w)
                 (files w ++ [dest]) (texts w)))
    | None => (inl (KeyError (output_key alg)), user w)
    end.

Definition isCanceled (w : world) : bool * world := (canceled w, w).

Definition setProgressText (s : string) (w : world) : world :=
  World (canceled w) (patience w) (broken w) (files w) (texts w ++ [s]).

Definition qgis : host world := Host processing_run isCanceled setProgressText.

(** A fresh session. *)
Definition idle : world := World false None [] [] [].

(** The user canceled before the script started. *)
Definition canceled_at_start : world := World true None [] [] [].

(** The user cancels while the [k]-th algorithm of the run is running. *)
Definition cancel_during (k : nat) : world :=
  World false (Some (k - 1)) [] [] [].

(** Algorithm [alg] raises. *)
Definition breaking (alg : string) : world := World false None [alg] [] [].

(** Two tiles of one metre grain, resampled to [desired] metres. *)
Definition tiles (desired : float) : dict :=
  <["INPUT" := PyLayers ["north.tif"; "south.tif"]]>
  (<["MOSAICKED" := PyStr "mosaic.sdat"]>
   (<["RESAMPLED" := PyStr "resampled.sdat"]>
    (<["SLOPE" := PyStr "slope.tif"]>
     (<["CLASSEDSLOPE" := PyStr "classed.sdat"]>
      (<["VECTORSLOPE" := PyStr "vector.shp"]>
       (<["ORIGINALGRAIN" := PyFloat 1]>
        (<["DESIREDGRAIN" := PyFloat desired]> ∅))))))).

End Sim.

(** A host whose broken algorithms, instead of raising, return a result that
    lacks their output. *)
Definition forgetful_run (alg : string) (params : kwargs) (w : Sim.world)
    : (exn + dict) * Sim.world :=
  if bool_decide (alg ∈ Sim.broken w) then (inr ∅, Sim.user w)
  else Sim.processing_run alg params w.

Definition forgetful : host Sim.world :=
  Host forgetful_run Sim.isCanceled Sim.setProgressText.

(** ** Stepping through a run *)

(** One step of symbolic execution: split on the next answer of the host or
    on the next dictionary lookup the script depends on. *)
Ltac script_step :=
  match goal with
  | |- context [processing_run ?h ?alg ?ps ?w] =>
      destruct (processing_run h alg ps w) as [[?|?] ?] eqn:?
  | |- context [isCanceled ?h ?w] =>
      destruct (isCanceled h w) as [[|] ?] eqn:?
  | |- context [Py.ne ?a ?b] => destruct (Py.ne a b) eqn:?
  | |- context [@lookup string pyval dict _ ?k ?d] =>
      is_var d; destruct (@lookup string pyval dict _ k d) eqn:?
  end; cbn.

(** Name the outcome of the run in the goal and expose the script. *)
Ltac script_begin h p w :=
  unfold result, world, trace;
  let Hrun := fresh "Hrun" in
  destruct (slopealg h p (w, [])) as [? [? ?]] eqn:Hrun; cbn [fst snd];
  revert Hrun;
  unfold slopealg, slope, resample, classify, vectorize, bind, getitem, run,
    feedback_isCanceled, feedback_setProgressText, ret, raise; cbn.

(** Follow every path of the script to its end. *)
Ltac script_paths :=
  repeat script_step; intros [= <- <- <-];
  unfold stages, completed, failures, polls, messages, calls; cbn.

(** Use what the path has learnt about the dictionaries and the grains. *)
Ltac script_facts :=
  repeat match goal with
         | H : _ !! _ = _ |- _ => rewrite H
         | H : Py.ne _ _ = _ |- _ => rewrite H
         end.

(** Bring what the path has learnt to bear on a hypothesis. *)
Ltac script_facts_in Hg :=
  repeat match goal with
         | H : _ !! _ = _ |- _ => rewrite H in Hg
         end.

Ltac closed_decide := apply (bool_decide_unpack _); vm_compute; exact I.

Section Claims.

Context {W : Type} (h : host W).

Implicit Types (p r m : dict) (w : W) (v : pyval) (t : list event).

(** C1: when the two grains compare equal, the resampling algorithm is
    never invoked, the run does not depend on the RESAMPLED destination
    (which is never looked up, so nothing is asked to write there), and the
    value returned under RESAMPLED is the mosaic's output, the value also
    returned under MOSAICKED. *)
Theorem equal_grains_skip_resampling p w og dg :
  p !! "ORIGINALGRAIN" = Some og ->
  p !! "DESIREDGRAIN" = Some dg ->
  Py.eq og dg = true ->
  ("saga:resampling" ∉ stages (trace h p w))
  /\ (forall p', (forall k, k ≠ "RESAMPLED" -> p' !! k = p !! k) ->
       slopealg h p' (w, []) = slopealg h p (w, []))
  /\ (forall r v, result h p w = inr r -> r !! "RESAMPLED" = Some v ->
       r !! "MOSAICKED" = Some v
       /\ exists ps m, head (trace h p w)
                       = Some (EvRun "saga:mosaicrasterlayers" ps (inr m))
                     /\ m !! "TARGET_OUT_GRID" = Some v).
Proof.
  intros Hog Hdg Heq.
  assert (forall p', (forall k, k ≠ "RESAMPLED" -> p' !! k = p !! k) ->
            slopealg h p' (w, []) = slopealg h p (w, [])) as Hind.
  { intros p' Hp'.
    unfold slopealg, slope, resample, classify, vectorize, getitem.
    rewrite !(Hp' "INPUT"), !(Hp' "ORIGINALGRAIN"), !(Hp' "DESIREDGRAIN"),
      !(Hp' "MOSAICKED"), !(Hp' "SLOPE"), !(Hp' "CLASSEDSLOPE"),
      !(Hp' "VECTORSLOPE") by done.
    rewrite Hog, Hdg. unfold bind, ret. cbn. unfold Py.ne. rewrite Heq.
    reflexivity. }
  revert Hind. generalize (forall p', (forall k, k ≠ "RESAMPLED" ->
    p' !! k = p !! k) -> slopealg h p' (w, []) = slopealg h p (w, [])).
  intros P HP. cut (("saga:resampling" ∉ stages (trace h p w))
    /\ (forall r v, result h p w = inr r -> r !! "RESAMPLED" = Some v ->
       r !! "MOSAICKED" = Some v
       /\ exists ps m, head (trace h p w)
                       = Some (EvRun "saga:mosaicrasterlayers" ps (inr m))
                     /\ m !! "TARGET_OUT_GRID" = Some v)); [tauto|].
  clear P HP. script_begin h p w. rewrite Hog, Hdg. cbn. unfold Py.ne.
  rewrite Heq. cbn. script_paths; (split; [closed_decide|]).
  all: intros r v [= <-] Hv; try done.
  rewrite lookup_insert_ne, lookup_insert_eq in Hv by done.
  simplify_eq. rewrite lookup_insert_eq. eauto.
Qed.

(** C3, as amended: the flag is first polled after the mosaic.  When every
    poll of the run finds the run canceled, as it does when the run was
    canceled before it started, the mosaic algorithm is still invoked, and
    it is the only one; no progress text is emitted; and once the mosaic
    has returned, the script returns the empty dictionary. *)
Theorem canceled_from_start_runs_mosaic_only p w grids size out :
  p !! "INPUT" = Some grids ->
  p !! "ORIGINALGRAIN" = Some size ->
  p !! "MOSAICKED" = Some out ->
  Forall (eq true) (polls (trace h p w)) ->
  calls (trace h p w)
    = [("saga:mosaicrasterlayers", mosaic_params grids size out)]
  /\ messages (trace h p w) = []
  /\ (completed (trace h p w) = ["saga:mosaicrasterlayers"] ->
      result h p w = inr ∅ /\ polls (trace h p w) = [true]).
Proof.
  intros Hg Hs Ho. script_begin h p w. rewrite Hg, Hs, Ho. cbn.
  script_paths; intros Hp; try (by apply Forall_cons_1 in Hp as [[=] _]);
    repeat split; try reflexivity; discriminate.
Qed.

(** C4, as amended: when the [k]-th poll, for [k] from 1 to 4, is the first
    to find the run canceled, the algorithms invoked are the first [k]
    stages, without the resampling when the grains are equal; each of them
    has returned; and the script returns the empty dictionary. *)
Theorem canceled_at_boundary p w k :
  1 <= k <= 4 ->
  polls (trace h p w) = replicate (k - 1) false ++ [true] ->
  stages (trace h p w) = first_stages p k
  /\ completed (trace h p w) = first_stages p k
  /\ result h p w = inr ∅.
Proof.
  intros Hk. script_begin h p w. script_paths.
  all: assert (k = 1 \/ k = 2 \/ k = 3 \/ k = 4) as [->|[->|[->| ->]]] by lia.
  all: intros Hp; cbn in Hp; try discriminate Hp; clear Hp.
  all: unfold first_stages, grains_differ; script_facts.
  all: repeat split; reflexivity.
Qed.

(** C10, as amended: when the poll that follows the vectorization is the
    first to find the run canceled, every stage of the pipeline has been
    invoked and has returned (all five, or the four others when the grains
    are equal), the vectorization among them, and the script returns the
    empty dictionary, in which no output is reported. *)
Theorem canceled_after_vectorize p w :
  polls (trace h p w) = [false; false; false; false; true] ->
  stages (trace h p w) = first_stages p 5
  /\ completed (trace h p w) = first_stages p 5
  /\ last (completed (trace h p w)) = Some "gdal:polygonize"
  /\ result h p w = inr ∅.
Proof.
  script_begin h p w.
  script_paths; intros Hp; try discriminate Hp; clear Hp;
    unfold first_stages, grains_differ; script_facts;
    repeat split; reflexivity.
Qed.

(** C9: when the grains compare equal and the first two polls find the run
    not canceled, the text "Resampling finished" is emitted although the
    resampling algorithm is not invoked. *)
Theorem resampling_reported_when_skipped p w og dg :
  p !! "ORIGINALGRAIN" = Some og ->
  p !! "DESIREDGRAIN" = Some dg ->
  Py.eq og dg = true ->
  take 2 (polls (trace h p w)) = [false; false] ->
  "Resampling finished" ∈ messages (trace h p w)
  /\ "saga:resampling" ∉ stages (trace h p w).
Proof.
  intros Hog Hdg Heq. script_begin h p w. rewrite Hog, Hdg. cbn.
  unfold Py.ne. rewrite Heq. cbn.
  script_paths; intros Hp; try discriminate Hp; clear Hp;
    split; closed_decide.
Qed.

(** C8: when an algorithm raises, the exception it raised is the outcome of
    the script, the failed call is the last event of the run, so nothing is
    invoked, polled or reported after it, and no algorithm is invoked
    twice. *)
Theorem failure_propagates p w alg ps x :
  EvRun alg ps (inl x) ∈ trace h p w ->
  result h p w = inl x
  /\ last (trace h p w) = Some (EvRun alg ps (inl x))
  /\ failures (trace h p w) = [(alg, x)]
  /\ NoDup (stages (trace h p w)).
Proof.
  script_begin h p w.
  script_paths; intros Hin;
    repeat (apply elem_of_cons in Hin as [Hin|Hin]; [try discriminate Hin|]);
    try (by apply elem_of_nil in Hin).
  all: injection Hin as -> -> ->.
  all: repeat split; closed_decide.
Qed.

(** C7: in every run the trace has the shape [boundaries] describes: each
    poll that finds the run not canceled is followed at once by one
    progress text, a poll that finds it canceled ends the run without one,
    and there is no other progress text.  The texts emitted are the first
    ones of "Mosaicking finished", "Resampling finished",
    "Slope calculated", "Slope classified", "Slope vectorized", in this
    order, one for each poll that found the run not canceled, and there
    are at most five polls. *)
Theorem progress_after_each_boundary p w :
  boundaries (trace h p w) = true
  /\ messages (trace h p w)
     = take (length (filter (eq false) (polls (trace h p w)))) PROGRESS
  /\ length (polls (trace h p w)) <= 5.
Proof.
  script_begin h p w.
  script_paths; script_facts; (split; [reflexivity|split; [reflexivity|]]);
    cbn; lia.
Qed.

(** C5: when the script is given all its parameters, every algorithm
    invoked returns a result with its output, and no poll finds the run
    canceled, the script returns a dictionary whose keys are exactly
    MOSAICKED, RESAMPLED, SLOPE, CLASSEDSLOPE and VECTORSLOPE, each bound to
    the output of its algorithm; RESAMPLED is bound to the output of the
    mosaic when the grains are equal. *)
Theorem complete_run_returns_five_outputs p w :
  Forall (fun k => is_Some (p !! k)) INPUTS ->
  forallb stage_ok (trace h p w) = true ->
  Forall (eq false) (polls (trace h p w)) ->
  exists r,
    result h p w = inr r
    /\ dom r = list_to_set ARTIFACTS
    /\ r !! "MOSAICKED"
       = Py.assoc "saga:mosaicrasterlayers" (outputs (trace h p w))
    /\ r !! "RESAMPLED"
       = Py.assoc (if grains_differ p then "saga:resampling"
                   else "saga:mosaicrasterlayers") (outputs (trace h p w))
    /\ r !! "SLOPE" = Py.assoc "gdal:slope" (outputs (trace h p w))
    /\ r !! "CLASSEDSLOPE"
       = Py.assoc "saga:rastercalculator" (outputs (trace h p w))
    /\ r !! "VECTORSLOPE"
       = Py.assoc "gdal:polygonize" (outputs (trace h p w)).
Proof.
  intros Hp. unfold INPUTS in Hp.
  repeat (apply Forall_cons_1 in Hp as [[? ?] Hp]).
  script_begin h p w. script_facts. cbn.
  script_paths; script_facts; cbn; intros Hok Hpolls;
    try discriminate Hok;
    repeat (apply Forall_cons_1 in Hpolls as [? Hpolls]);
    try discriminate.
  all: eexists; (split; [reflexivity|]).
  all: unfold grains_differ; script_facts; cbn.
  all: rewrite !dom_insert_L, dom_empty_L.
  all: repeat split; reflexivity.
Qed.

(** C6: in a complete run, one that returns a dictionary that is not
    empty, the algorithms invoked are the stages of the pipeline in order,
    each once, and each returned its output; the mosaic is handed the INPUT
    parameter and every later algorithm the output of the algorithm
    invoked just before it; all other entries handed to an algorithm are
    constants and parameters of the script, so each output goes to the
    next algorithm only. *)
Theorem outputs_feed_next_stage p w r :
  result h p w = inr r ->
  r ≠ ∅ ->
  exists source,
    p !! "INPUT" = Some source
    /\ stages (trace h p w) = first_stages p 5
    /\ (outputs (trace h p w)).*1 = stages (trace h p w)
    /\ inputs (trace h p w)
       = take (length (stages (trace h p w)))
           (source :: (outputs (trace h p w)).*2)
    /\ calls (trace h p w)
       = chained p (stages (trace h p w)) source
           (outputs (trace h p w)).*2.
Proof.
  script_begin h p w.
  script_paths; script_facts; cbn; intros [= <-] Hr; try done.
  all: eexists; (split; [reflexivity|]).
  all: unfold first_stages, grains_differ, chained, params_of, inputs;
    script_facts; cbn.
  all: repeat split; reflexivity.
Qed.

End Claims.

(** ** The classification formula *)

Section Formula.

Lemma SFcompare_Eq_sym x y :
  SFcompare x y = Some Eq -> SFcompare y x = Some Eq.
Proof.
  destruct x as [[]|[]| |[] m1 e1], y as [[]|[]| |[] m2 e2]; cbn; try done.
  all: rewrite (Z.compare_antisym e1 e2), (ZC4 m2 m1).
  all: destruct (e1 ?= e2)%Z; cbn; try done.
  all: destruct (Pos.compare_cont Eq m1 m2); cbn; done.
Qed.

(** On binary64 numbers, [t < v or v == t] is [t <= v], also when [v] is
    not a number. *)
Lemma ltb_or_eqb (v t : float) :
  (PrimFloat.ltb t v || PrimFloat.eqb v t) = PrimFloat.leb t v.
Proof.
  rewrite FloatAxioms.ltb_spec, FloatAxioms.eqb_spec, FloatAxioms.leb_spec.
  unfold SFltb, SFeqb, SFleb.
  destruct (SFcompare (Prim2SF t) (Prim2SF v)) as [[]|] eqn:E1;
    destruct (SFcompare (Prim2SF v) (Prim2SF t)) as [[]|] eqn:E2; try done;
    first [apply SFcompare_Eq_sym in E1 | apply SFcompare_Eq_sym in E2];
    congruence.
Qed.

Lemma or_gt_eq (v t : float) :
  Saga.or (Saga.gt v t) (Saga.eq v t) = Saga.truth (PrimFloat.leb t v).
Proof.
  rewrite <-ltb_or_eqb. unfold Saga.or, Saga.gt, Saga.eq.
  destruct (PrimFloat.ltb t v), (PrimFloat.eqb v t); reflexivity.
Qed.

(** C2: the formula handed to the raster calculator evaluates, on every
    cell value [v], to the number of thresholds among 0, 5, 10, 15, 20 and
    30 that [v] reaches, a whole number from 0 to 6; on 12 it evaluates to
    3. *)
Theorem formula_counts_thresholds (v : float) :
  Saga.calculate FORMULA v = Some (Saga.number (Z.of_nat (class_code v)))
  /\ class_code v <= 6
  /\ Saga.calculate FORMULA 12 = Some 3%float
  /\ forall grids out,
       Py.assoc "FORMULA" (rastercalculator_params grids out)
       = Some (PyStr FORMULA).
Proof.
  split; [|split; [|split; [vm_compute; reflexivity|reflexivity]]].
  - unfold Saga.calculate.
    change (Saga.parse FORMULA) with formula_ast. unfold formula_ast.
    cbn [mbind option_bind Saga.eval String.eqb Ascii.eqb Bool.eqb].
    rewrite !or_gt_eq. unfold class_code, THRESHOLDS.
    change (Saga.number 0) with 0%float.
    change (Saga.number 5) with 5%float.
    change (Saga.number 10) with 10%float.
    change (Saga.number 15) with 15%float.
    change (Saga.number 20) with 20%float.
    change (Saga.number 30) with 30%float.
    cbn [List.filter].
    destruct (0 <=? v)%float, (5 <=? v)%float, (10 <=? v)%float,
      (15 <=? v)%float, (20 <=? v)%float, (30 <=? v)%float;
      vm_compute; reflexivity.
  - unfold class_code, THRESHOLDS. cbn [List.filter].
    destruct (0 <=? v)%float, (5 <=? v)%float, (10 <=? v)%float,
      (15 <=? v)%float, (20 <=? v)%float, (30 <=? v)%float; cbn; lia.
Qed.

End Formula.

(** ** More of the script *)

Section Extras.
Context {W : Type} (h : host W).
Implicit Types (p r m : dict) (w : W) (v : pyval) (t : list event).

(** X1: in every run the algorithms are invoked in the order of the
    pipeline, from its first stage on, without gaps or repeats (the
    resampling left out when the grains are equal); every call but the last
    has returned, and at most one call fails. *)
Theorem stages_follow_the_pipeline p w :
  stages (trace h p w) `prefix_of` first_stages p 5
  /\ stages (trace h p w)
     = completed (trace h p w) ++ (failures (trace h p w)).*1
  /\ length (failures (trace h p w)) <= 1.
Proof.
  script_begin h p w. script_paths.
  all: (split; [|split; [reflexivity|cbn; lia]]).
  all: unfold first_stages.
  all: destruct (grains_differ p) eqn:Hg; unfold grains_differ in Hg.
  all: script_facts_in Hg.
  all: try congruence.
  all: eexists; reflexivity.
Qed.

(** X2: in every run, also one that is canceled or fails, the first call is
    handed the INPUT parameter and each later call the output of the call
    before it; every other entry of a call is a constant or a parameter of
    the script. *)
Theorem every_call_is_chained p w :
  calls (trace h p w)
  = chained p (stages (trace h p w)) (default PyNone (p !! "INPUT"))
      (outputs (trace h p w)).*2.
Proof.
  script_begin h p w.
  script_paths; unfold chained, params_of; script_facts; reflexivity.
Qed.

(** X3: the script returns the empty dictionary exactly when the last poll
    of the run found it canceled. *)
Theorem empty_result_iff_canceled p w :
  result h p w = inr ∅ <-> last (polls (trace h p w)) = Some true.
Proof.
  script_begin h p w.
  script_paths; (split; intros Hr); try reflexivity; try discriminate Hr.
  all: injection Hr as Hr; by apply insert_non_empty in Hr.
Qed.

(** X4: a result that is not empty is never partial: its keys are the five
    declared destinations, all five polls found the run not canceled, all
    five progress texts were emitted, and every stage of the pipeline
    returned. *)
Theorem no_partial_result p w r :
  result h p w = inr r ->
  r ≠ ∅ ->
  dom r = list_to_set Alg.destinations
  /\ polls (trace h p w) = replicate 5 false
  /\ messages (trace h p w) = PROGRESS
  /\ completed (trace h p w) = first_stages p 5
  /\ failures (trace h p w) = [].
Proof.
  script_begin h p w.
  script_paths; intros [= <-] Hr; try done.
  all: unfold first_stages, grains_differ; script_facts.
  all: rewrite !dom_insert_L, dom_empty_L.
  all: repeat split; try reflexivity.
  all: cbn; set_solver.
Qed.

(** X5: when INPUT, ORIGINALGRAIN or MOSAICKED is missing, the script raises
    [KeyError] for the first of them that is, in this order, before it acts
    on the host: the world is unchanged and the trace is empty. *)
Theorem missing_mosaic_parameter p w k :
  first_missing p ["INPUT"; "ORIGINALGRAIN"; "MOSAICKED"] = Some k ->
  slopealg h p (w, []) = (inl (KeyError k), (w, [])).
Proof.
  unfold first_missing, slopealg, bind, getitem, ret, raise. cbn.
  destruct (p !! "INPUT"); cbn; [|by intros [= <-]].
  destruct (p !! "ORIGINALGRAIN"); cbn; [|by intros [= <-]].
  destruct (p !! "MOSAICKED"); cbn; [|by intros [= <-]].
  discriminate.
Qed.


(** X7: an exception the script ends with is the one an algorithm raised,
    or the [KeyError] of a declared parameter that is missing, or the
    [KeyError] of the output key that the result of the last algorithm to
    return lacks. *)
Theorem every_error_has_a_cause p w x :
  result h p w = inl x ->
  (exists alg, failures (trace h p w) = [(alg, x)])
  \/ (exists k, x = KeyError k /\ p !! k = None /\ k ∈ Alg.names)
  \/ (exists alg,
        last (completed (trace h p w)) = Some alg
        /\ Py.assoc alg (outputs (trace h p w)) = None
        /\ x = KeyError (output_key alg)).
Proof.
  script_begin h p w.
  script_paths; unfold outputs; cbn; script_facts; cbn; intros [= <-].
  all: first
    [ left; eexists; reflexivity
    | right; left; eexists; split; [reflexivity|];
      split; [assumption|closed_decide]
    | right; right; eexists; split; [reflexivity|]; split; reflexivity ].
Qed.

(** X8: when an algorithm returns a result without its output key, no
    algorithm is invoked after it, and the run ends with the [KeyError] of
    that key, or with the empty dictionary when a later poll finds it
    canceled, or, after the mosaic, with the [KeyError] of a missing
    DESIREDGRAIN, which is looked up first. *)
Theorem missing_output_ends_the_run p w alg :
  alg ∈ completed (trace h p w) ->
  Py.assoc alg (outputs (trace h p w)) = None ->
  last (stages (trace h p w)) = Some alg
  /\ (result h p w = inl (KeyError (output_key alg))
      \/ result h p w = inr ∅
      \/ (p !! "DESIREDGRAIN" = None
          /\ result h p w = inl (KeyError "DESIREDGRAIN"))).
Proof.
  script_begin h p w.
  script_paths; unfold outputs; cbn; script_facts; cbn; intros Hin;
    repeat (apply elem_of_cons in Hin as [->|Hin]);
    try (by apply elem_of_nil in Hin);
    cbn; intros Hout; try discriminate Hout.
  all: split; [reflexivity|];
    first [left; reflexivity|right; left; reflexivity|right; right; by split].
Qed.

(** X9: the script reads no parameter but the eight it declares: two
    parameter dictionaries that agree on the declared names give the same
    run from every state. *)
Theorem declared_inputs_only p p' (s : state) :
  (forall k, k ∈ Alg.names -> p' !! k = p !! k) ->
  slopealg h p' s = slopealg h p s.
Proof.
  intros Hp.
  assert (forall k, bool_decide (k ∈ Alg.names) = true -> p' !! k = p !! k)
    as Hk by (intros k Hk; apply Hp; by apply bool_decide_eq_true in Hk).
  unfold slopealg, resample, slope, classify, vectorize, getitem.
  rewrite !(Hk "INPUT"), !(Hk "ORIGINALGRAIN"), !(Hk "DESIREDGRAIN"),
    !(Hk "MOSAICKED"), !(Hk "RESAMPLED"), !(Hk "SLOPE"),
    !(Hk "CLASSEDSLOPE"), !(Hk "VECTORSLOPE") by (vm_compute; reflexivity).
  reflexivity.
Qed.

(** X10: when the grains compare different, the RESAMPLED destination is
    given, the first poll finds the run not canceled and the mosaic returned
    its output, the second call is the resampling of that output to the
    desired grain into the RESAMPLED destination; and a RESAMPLED entry of
    the result is the output of the resampling. *)
Theorem differing_grains_resample p w og dg out v :
  p !! "ORIGINALGRAIN" = Some og ->
  p !! "DESIREDGRAIN" = Some dg ->
  Py.ne og dg = true ->
  p !! "RESAMPLED" = Some out ->
  take 1 (polls (trace h p w)) = [false] ->
  Py.assoc "saga:mosaicrasterlayers" (outputs (trace h p w)) = Some v ->
  calls (trace h p w) !! 1
  = Some ("saga:resampling", resampling_params v dg out)
  /\ (forall r x, result h p w = inr r -> r !! "RESAMPLED" = Some x ->
       Py.assoc "saga:resampling" (outputs (trace h p w)) = Some x).
Proof.
  intros Hog Hdg Hne Hout. script_begin h p w.
  rewrite Hog, Hdg, ?Hout. cbn. rewrite Hne. cbn. rewrite ?Hout. cbn.
  script_paths; unfold outputs; cbn; script_facts; cbn;
    intros Hp Hv; try discriminate Hp; try discriminate Hv.
  all: injection Hv as <-.
  all: split; [reflexivity|].
  all: intros r x [= <-] Hx; done.
Qed.

End Extras.

(** ** Values at work *)

Example grains_compare_by_value :
  Py.ne (PyFloat 1) (PyFloat 2) = true
  /\ Py.ne (PyFloat 1) (PyFloat 1) = false
  /\ Py.ne (PyInt 2) (PyFloat 2) = false
  /\ Py.ne (PyFloat 0.5) (PyInt 0) = true
  /\ Py.ne (PyFloat nan) (PyFloat nan) = true.
Proof. vm_compute. done. Qed.

Example formula_values :
  Saga.calculate FORMULA 0 = Some 1%float
  /\ Saga.calculate FORMULA 4.5 = Some 1%float
  /\ Saga.calculate FORMULA 5 = Some 2%float
  /\ Saga.calculate FORMULA 30 = Some 6%float
  /\ Saga.calculate FORMULA (-1) = Some 0%float
  /\ Saga.calculate FORMULA nan = Some 0%float.
Proof. vm_compute. done. Qed.

(** ** Runs on the simulated host *)

Example complete_run :
  stages (trace Sim.qgis (Sim.tiles 2) Sim.idle) = STAGES
  /\ messages (trace Sim.qgis (Sim.tiles 2) Sim.idle) = PROGRESS
  /\ polls (trace Sim.qgis (Sim.tiles 2) Sim.idle) = replicate 5 false
  /\ Sim.files (world Sim.qgis (Sim.tiles 2) Sim.idle)
     = [PyStr "mosaic.sdat"; PyStr "resampled.sdat"; PyStr "slope.tif";
        PyStr "classed.sdat"; PyStr "vector.shp"].
Proof. vm_compute. done. Qed.

Example complete_run_equal_grains :
  stages (trace Sim.qgis (Sim.tiles 1) Sim.idle)
  = ["saga:mosaicrasterlayers"; "gdal:slope"; "saga:rastercalculator";
     "gdal:polygonize"]
  /\ messages (trace Sim.qgis (Sim.tiles 1) Sim.idle) = PROGRESS
  /\ Sim.files (world Sim.qgis (Sim.tiles 1) Sim.idle)
     = [PyStr "mosaic.sdat"; PyStr "slope.tif"; PyStr "classed.sdat";
        PyStr "vector.shp"]
  /\ match result Sim.qgis (Sim.tiles 1) Sim.idle with
     | inr r => r !! "RESAMPLED"
     | inl _ => None
     end = Some (PyStr "mosaic.sdat").
Proof. vm_compute. done. Qed.

(** C3, as stated, fails: the run is canceled before the script starts, and
    the script still invokes the mosaic, which writes its output. *)
Lemma canceled_from_start_counterexample :
  Sim.canceled Sim.canceled_at_start = true
  /\ result Sim.qgis (Sim.tiles 2) Sim.canceled_at_start = inr ∅
  /\ ~ (stages (trace Sim.qgis (Sim.tiles 2) Sim.canceled_at_start) = []
        /\ Sim.files (world Sim.qgis (Sim.tiles 2) Sim.canceled_at_start)
           = []).
Proof.
  split; [reflexivity|]. split; [vm_compute; reflexivity|].
  vm_compute. intros [[=] _].
Qed.

(** C4, as stated, fails for k = 3 when the grains are equal: the run is
    canceled while the slope is computed, the third poll is the first to
    find it canceled, and of the first three stages the resampling has not
    run: only the mosaic and the slope have been written. *)
Lemma canceled_at_boundary_counterexample :
  polls (trace Sim.qgis (Sim.tiles 1) (Sim.cancel_during 2))
  = [false; false; true]
  /\ result Sim.qgis (Sim.tiles 1) (Sim.cancel_during 2) = inr ∅
  /\ stages (trace Sim.qgis (Sim.tiles 1) (Sim.cancel_during 2))
     ≠ take 3 STAGES
  /\ Sim.files (world Sim.qgis (Sim.tiles 1) (Sim.cancel_during 2))
     = [PyStr "mosaic.sdat"; PyStr "slope.tif"].
Proof.
  split; [vm_compute; reflexivity|]. split; [vm_compute; reflexivity|].
  split; [vm_compute; intros [=]|vm_compute; reflexivity].
Qed.

(** C10, as stated, fails when the grains are equal: the poll after the
    vectorization is the first to find the run canceled, and four
    algorithms, not five, have run and four outputs have been written. *)
Lemma canceled_after_vectorize_counterexample :
  polls (trace Sim.qgis (Sim.tiles 1) (Sim.cancel_during 4))
  = [false; false; false; false; true]
  /\ result Sim.qgis (Sim.tiles 1) (Sim.cancel_during 4) = inr ∅
  /\ stages (trace Sim.qgis (Sim.tiles 1) (Sim.cancel_during 4)) ≠ STAGES
  /\ Sim.files (world Sim.qgis (Sim.tiles 1) (Sim.cancel_during 4))
     = [PyStr "mosaic.sdat"; PyStr "slope.tif"; PyStr "classed.sdat";
        PyStr "vector.shp"].
Proof.
  split; [vm_compute; reflexivity|]. split; [vm_compute; reflexivity|].
  split; [vm_compute; intros [=]|vm_compute; reflexivity].
Qed.

(** ** The theorems at work *)

Lemma equal_grains_skip_resampling_witness :
  Sim.tiles 1 !! "ORIGINALGRAIN" = Some (PyFloat 1)
  /\ Sim.tiles 1 !! "DESIREDGRAIN" = Some (PyFloat 1)
  /\ Py.eq (PyFloat 1) (PyFloat 1) = true
  /\ "saga:resampling" ∉ stages (trace Sim.qgis (Sim.tiles 1) Sim.idle).
Proof.
  assert (Sim.tiles 1 !! "ORIGINALGRAIN" = Some (PyFloat 1)) as Hog
    by (vm_compute; reflexivity).
  assert (Sim.tiles 1 !! "DESIREDGRAIN" = Some (PyFloat 1)) as Hdg
    by (vm_compute; reflexivity).
  assert (Py.eq (PyFloat 1) (PyFloat 1) = true) as Heq
    by (vm_compute; reflexivity).
  repeat split; try assumption.
  exact (proj1 (equal_grains_skip_resampling Sim.qgis (Sim.tiles 1) Sim.idle
                  (PyFloat 1) (PyFloat 1) Hog Hdg Heq)).
Defined.

Lemma canceled_from_start_runs_mosaic_only_witness :
  Sim.tiles 2 !! "INPUT" = Some (PyLayers ["north.tif"; "south.tif"])
  /\ Sim.tiles 2 !! "ORIGINALGRAIN" = Some (PyFloat 1)
  /\ Sim.tiles 2 !! "MOSAICKED" = Some (PyStr "mosaic.sdat")
  /\ Forall (eq true)
       (polls (trace Sim.qgis (Sim.tiles 2) Sim.canceled_at_start))
  /\ calls (trace Sim.qgis (Sim.tiles 2) Sim.canceled_at_start)
     = [("saga:mosaicrasterlayers",
         mosaic_params (PyLayers ["north.tif"; "south.tif"]) (PyFloat 1)
           (PyStr "mosaic.sdat"))]
  /\ messages (trace Sim.qgis (Sim.tiles 2) Sim.canceled_at_start) = [].
Proof.
  assert (Sim.tiles 2 !! "INPUT" = Some (PyLayers ["north.tif"; "south.tif"]))
    as Hg by (vm_compute; reflexivity).
  assert (Sim.tiles 2 !! "ORIGINALGRAIN" = Some (PyFloat 1)) as Hs
    by (vm_compute; reflexivity).
  assert (Sim.tiles 2 !! "MOSAICKED" = Some (PyStr "mosaic.sdat")) as Ho
    by (vm_compute; reflexivity).
  assert (Forall (eq true)
            (polls (trace Sim.qgis (Sim.tiles 2) Sim.canceled_at_start)))
    as Hp by (vm_compute; repeat constructor).
  destruct (canceled_from_start_runs_mosaic_only Sim.qgis (Sim.tiles 2)
              Sim.canceled_at_start _ _ _ Hg Hs Ho Hp) as (Hc & Hm & _).
  repeat split; assumption.
Defined.

Lemma canceled_at_boundary_witness :
  1 <= 2 <= 4
  /\ polls (trace Sim.qgis (Sim.tiles 2) (Sim.cancel_during 2))
     = replicate (2 - 1) false ++ [true]
  /\ stages (trace Sim.qgis (Sim.tiles 2) (Sim.cancel_during 2))
     = first_stages (Sim.tiles 2) 2
  /\ completed (trace Sim.qgis (Sim.tiles 2) (Sim.cancel_during 2))
     = first_stages (Sim.tiles 2) 2
  /\ result Sim.qgis (Sim.tiles 2) (Sim.cancel_during 2) = inr ∅.
Proof.
  assert (1 <= 2 <= 4) as Hk by lia.
  assert (polls (trace Sim.qgis (Sim.tiles 2) (Sim.cancel_during 2))
          = replicate (2 - 1) false ++ [true]) as Hp
    by (vm_compute; reflexivity).
  split; [exact Hk|]. split; [exact Hp|].
  exact (canceled_at_boundary Sim.qgis (Sim.tiles 2) (Sim.cancel_during 2) 2
           Hk Hp).
Defined.

Lemma canceled_after_vectorize_witness :
  polls (trace Sim.qgis (Sim.tiles 2) (Sim.cancel_during 5))
  = [false; false; false; false; true]
  /\ stages (trace Sim.qgis (Sim.tiles 2) (Sim.cancel_during 5))
     = first_stages (Sim.tiles 2) 5
  /\ completed (trace Sim.qgis (Sim.tiles 2) (Sim.cancel_during 5))
     = first_stages (Sim.tiles 2) 5
  /\ last (completed (trace Sim.qgis (Sim.tiles 2) (Sim.cancel_during 5)))
     = Some "gdal:polygonize"
  /\ result Sim.qgis (Sim.tiles 2) (Sim.cancel_during 5) = inr ∅.
Proof.
  assert (polls (trace Sim.qgis (Sim.tiles 2) (Sim.cancel_during 5))
          = [false; false; false; false; true]) as Hp
    by (vm_compute; reflexivity).
  split; [exact Hp|].
  exact (canceled_after_vectorize Sim.qgis (Sim.tiles 2) (Sim.cancel_during 5)
           Hp).
Defined.

Lemma resampling_reported_when_skipped_witness :
  Sim.tiles 1 !! "ORIGINALGRAIN" = Some (PyFloat 1)
  /\ Sim.tiles 1 !! "DESIREDGRAIN" = Some (PyFloat 1)
  /\ Py.eq (PyFloat 1) (PyFloat 1) = true
  /\ take 2 (polls (trace Sim.qgis (Sim.tiles 1) Sim.idle)) = [false; false]
  /\ "Resampling finished" ∈ messages (trace Sim.qgis (Sim.tiles 1) Sim.idle)
  /\ "saga:resampling" ∉ stages (trace Sim.qgis (Sim.tiles 1) Sim.idle).
Proof.
  assert (Sim.tiles 1 !! "ORIGINALGRAIN" = Some (PyFloat 1)) as Hog
    by (vm_compute; reflexivity).
  assert (Sim.tiles 1 !! "DESIREDGRAIN" = Some (PyFloat 1)) as Hdg
    by (vm_compute; reflexivity).
  assert (Py.eq (PyFloat 1) (PyFloat 1) = true) as Heq
    by (vm_compute; reflexivity).
  assert (take 2 (polls (trace Sim.qgis (Sim.tiles 1) Sim.idle))
          = [false; false]) as Hp by (vm_compute; reflexivity).
  split; [exact Hog|]. split; [exact Hdg|]. split; [exact Heq|].
  split; [exact Hp|].
  exact (resampling_reported_when_skipped Sim.qgis (Sim.tiles 1) Sim.idle
           _ _ Hog Hdg Heq Hp).
Defined.

Lemma failure_propagates_witness :
  EvRun "gdal:slope" (slope_params (PyStr "resampled.sdat") (PyStr "slope.tif"))
    (inl (QgsProcessingException "gdal:slope"))
  ∈ trace Sim.qgis (Sim.tiles 2) (Sim.breaking "gdal:slope")
  /\ result Sim.qgis (Sim.tiles 2) (Sim.breaking "gdal:slope")
     = inl (QgsProcessingException "gdal:slope")
  /\ stages (trace Sim.qgis (Sim.tiles 2) (Sim.breaking "gdal:slope"))
     = ["saga:mosaicrasterlayers"; "saga:resampling"; "gdal:slope"].
Proof.
  assert (EvRun "gdal:slope"
            (slope_params (PyStr "resampled.sdat") (PyStr "slope.tif"))
            (inl (QgsProcessingException "gdal:slope"))
          ∈ trace Sim.qgis (Sim.tiles 2) (Sim.breaking "gdal:slope")) as Hin.
  { apply list_elem_of_In. vm_compute. tauto. }
  split; [exact Hin|].
  split; [|vm_compute; reflexivity].
  exact (proj1 (failure_propagates Sim.qgis (Sim.tiles 2)
                  (Sim.breaking "gdal:slope") _ _ _ Hin)).
Defined.

Lemma complete_run_returns_five_outputs_witness :
  Forall (fun k => is_Some (Sim.tiles 2 !! k)) INPUTS
  /\ forallb stage_ok (trace Sim.qgis (Sim.tiles 2) Sim.idle) = true
  /\ Forall (eq false) (polls (trace Sim.qgis (Sim.tiles 2) Sim.idle))
  /\ exists r,
       result Sim.qgis (Sim.tiles 2) Sim.idle = inr r
       /\ dom r = list_to_set ARTIFACTS
       /\ r !! "RESAMPLED" = Some (PyStr "resampled.sdat").
Proof.
  assert (Forall (fun k => is_Some (Sim.tiles 2 !! k)) INPUTS) as Hp
    by (repeat constructor; vm_compute; eauto).
  assert (forallb stage_ok (trace Sim.qgis (Sim.tiles 2) Sim.idle) = true)
    as Hok by (vm_compute; reflexivity).
  assert (Forall (eq false) (polls (trace Sim.qgis (Sim.tiles 2) Sim.idle)))
    as Hc by (vm_compute; repeat constructor).
  split; [exact Hp|]. split; [exact Hok|]. split; [exact Hc|].
  destruct (complete_run_returns_five_outputs Sim.qgis (Sim.tiles 2) Sim.idle
              Hp Hok Hc) as (r & Hr & Hdom & _ & Hre & _).
  exists r. split; [exact Hr|]. split; [exact Hdom|].
  rewrite Hre. vm_compute. reflexivity.
Defined.

Lemma outputs_feed_next_stage_witness :
  exists r,
    result Sim.qgis (Sim.tiles 2) Sim.idle = inr r
    /\ r ≠ ∅
    /\ inputs (trace Sim.qgis (Sim.tiles 2) Sim.idle)
       = [PyLayers ["north.tif"; "south.tif"]; PyStr "mosaic.sdat";
          PyStr "resampled.sdat"; PyStr "slope.tif"; PyStr "classed.sdat"]
    /\ calls (trace Sim.qgis (Sim.tiles 2) Sim.idle)
       = chained (Sim.tiles 2) (stages (trace Sim.qgis (Sim.tiles 2) Sim.idle))
           (PyLayers ["north.tif"; "south.tif"])
           (outputs (trace Sim.qgis (Sim.tiles 2) Sim.idle)).*2.
Proof.
  destruct (result Sim.qgis (Sim.tiles 2) Sim.idle) as [x|r] eqn:Hr;
    [vm_compute in Hr; discriminate Hr|].
  assert (r ≠ ∅) as Hne.
  { intros ->. vm_compute in Hr. discriminate Hr. }
  exists r. split; [reflexivity|]. split; [exact Hne|].
  destruct (outputs_feed_next_stage Sim.qgis (Sim.tiles 2) Sim.idle r Hr Hne)
    as (source & Hs & _ & _ & Hin & Hcalls).
  assert (source = PyLayers ["north.tif"; "south.tif"]) as ->
    by (vm_compute in Hs; congruence).
  split; [|exact Hcalls].
  rewrite Hin. vm_compute. reflexivity.
Defined.

Lemma no_partial_result_witness :
  result Sim.qgis (Sim.tiles 1) Sim.idle
  = inr (<["MOSAICKED" := PyStr "mosaic.sdat"]>
         (<["RESAMPLED" := PyStr "mosaic.sdat"]>
          (<["SLOPE" := PyStr "slope.tif"]>
           (<["CLASSEDSLOPE" := PyStr "classed.sdat"]>
            (<["VECTORSLOPE" := PyStr "vector.shp"]> ∅)))))
  /\ polls (trace Sim.qgis (Sim.tiles 1) Sim.idle) = replicate 5 false
  /\ messages (trace Sim.qgis (Sim.tiles 1) Sim.idle) = PROGRESS
  /\ completed (trace Sim.qgis (Sim.tiles 1) Sim.idle)
     = first_stages (Sim.tiles 1) 5.
Proof.
  assert (result Sim.qgis (Sim.tiles 1) Sim.idle
          = inr (<["MOSAICKED" := PyStr "mosaic.sdat"]>
                 (<["RESAMPLED" := PyStr "mosaic.sdat"]>
                  (<["SLOPE" := PyStr "slope.tif"]>
                   (<["CLASSEDSLOPE" := PyStr "classed.sdat"]>
                    (<["VECTORSLOPE" := PyStr "vector.shp"]> ∅))))))
    as Hr by (vm_compute; reflexivity).
  split; [exact Hr|].
  destruct (no_partial_result Sim.qgis (Sim.tiles 1) Sim.idle _ Hr
              (insert_non_empty _ _ _)) as (_ & Hp & Hm & Hc & _).
  repeat split; assumption.
Defined.

Lemma missing_mosaic_parameter_witness :
  first_missing (delete "ORIGINALGRAIN" (Sim.tiles 2))
    ["INPUT"; "ORIGINALGRAIN"; "MOSAICKED"] = Some "ORIGINALGRAIN"
  /\ slopealg Sim.qgis (delete "ORIGINALGRAIN" (Sim.tiles 2)) (Sim.idle, [])
     = (inl (KeyError "ORIGINALGRAIN"), (Sim.idle, [])).
Proof.
  assert (first_missing (delete "ORIGINALGRAIN" (Sim.tiles 2))
            ["INPUT"; "ORIGINALGRAIN"; "MOSAICKED"] = Some "ORIGINALGRAIN")
    as Hk by (vm_compute; reflexivity).
  split; [exact Hk|].
  exact (missing_mosaic_parameter Sim.qgis _ Sim.idle _ Hk).
Defined.


Lemma every_error_has_a_cause_witness :
  result forgetful (Sim.tiles 2) (Sim.breaking "gdal:polygonize")
  = inl (KeyError "OUTPUT")
  /\ ((exists alg,
        failures (trace forgetful (Sim.tiles 2)
                    (Sim.breaking "gdal:polygonize"))
        = [(alg, KeyError "OUTPUT")])
     \/ (exists k,
          KeyError "OUTPUT" = KeyError k
          /\ Sim.tiles 2 !! k = None /\ k ∈ Alg.names)
     \/ (exists alg,
          last (completed (trace forgetful (Sim.tiles 2)
                             (Sim.breaking "gdal:polygonize"))) = Some alg
          /\ Py.assoc alg
               (outputs (trace forgetful (Sim.tiles 2)
                           (Sim.breaking "gdal:polygonize"))) = None
          /\ KeyError "OUTPUT" = KeyError (output_key alg))).
Proof.
  assert (result forgetful (Sim.tiles 2) (Sim.breaking "gdal:polygonize")
          = inl (KeyError "OUTPUT")) as Hr by (vm_compute; reflexivity).
  split; [exact Hr|].
  exact (every_error_has_a_cause forgetful (Sim.tiles 2)
           (Sim.breaking "gdal:polygonize") _ Hr).
Defined.

Lemma missing_output_ends_the_run_witness :
  "gdal:slope"
  ∈ completed (trace forgetful (Sim.tiles 2) (Sim.breaking "gdal:slope"))
  /\ Py.assoc "gdal:slope"
       (outputs (trace forgetful (Sim.tiles 2) (Sim.breaking "gdal:slope")))
     = None
  /\ last (stages (trace forgetful (Sim.tiles 2) (Sim.breaking "gdal:slope")))
     = Some "gdal:slope"
  /\ result forgetful (Sim.tiles 2) (Sim.breaking "gdal:slope")
     = inl (KeyError "OUTPUT").
Proof.
  assert ("gdal:slope"
          ∈ completed (trace forgetful (Sim.tiles 2)
                         (Sim.breaking "gdal:slope"))) as Hin
    by closed_decide.
  assert (Py.assoc "gdal:slope"
            (outputs (trace forgetful (Sim.tiles 2)
                        (Sim.breaking "gdal:slope"))) = None) as Hout
    by (vm_compute; reflexivity).
  split; [exact Hin|]. split; [exact Hout|].
  split; [|vm_compute; reflexivity].
  exact (proj1 (missing_output_ends_the_run forgetful (Sim.tiles 2)
                  (Sim.breaking "gdal:slope") _ Hin Hout)).
Defined.

Lemma declared_inputs_only_witness :
  (forall k, k ∈ Alg.names ->
     <["CRS" := PyStr "EPSG:4326"]> (Sim.tiles 2) !! k = Sim.tiles 2 !! k)
  /\ slopealg Sim.qgis (<["CRS" := PyStr "EPSG:4326"]> (Sim.tiles 2))
       (Sim.idle, [])
     = slopealg Sim.qgis (Sim.tiles 2) (Sim.idle, []).
Proof.
  assert (forall k, k ∈ Alg.names ->
            <["CRS" := PyStr "EPSG:4326"]> (Sim.tiles 2) !! k
            = Sim.tiles 2 !! k) as Hk.
  { intros k Hin. apply lookup_insert_ne. intros <-.
    revert Hin. apply (bool_decide_unpack _). vm_compute. exact I. }
  split; [exact Hk|].
  exact (declared_inputs_only Sim.qgis _ _ (Sim.idle, []) Hk).
Defined.

Lemma differing_grains_resample_witness :
  (Alg.defaults ∪ Sim.tiles 1) !! "ORIGINALGRAIN" = Some (PyFloat 1)
  /\ (Alg.defaults ∪ Sim.tiles 1) !! "DESIREDGRAIN" = Some (PyFloat 2)
  /\ Py.ne (PyFloat 1) (PyFloat 2) = true
  /\ (Alg.defaults ∪ Sim.tiles 1) !! "RESAMPLED"
     = Some (PyStr "resampled.sdat")
  /\ take 1 (polls (trace Sim.qgis (Alg.defaults ∪ Sim.tiles 1) Sim.idle))
     = [false]
  /\ Py.assoc "saga:mosaicrasterlayers"
       (outputs (trace Sim.qgis (Alg.defaults ∪ Sim.tiles 1) Sim.idle))
     = Some (PyStr "mosaic.sdat")
  /\ calls (trace Sim.qgis (Alg.defaults ∪ Sim.tiles 1) Sim.idle) !! 1
     = Some ("saga:resampling",
             resampling_params (PyStr "mosaic.sdat") (PyFloat 2)
               (PyStr "resampled.sdat")).
Proof.
  assert ((Alg.defaults ∪ Sim.tiles 1) !! "ORIGINALGRAIN" = Some (PyFloat 1))
    as Hog by (vm_compute; reflexivity).
  assert ((Alg.defaults ∪ Sim.tiles 1) !! "DESIREDGRAIN" = Some (PyFloat 2))
    as Hdg by (vm_compute; reflexivity).
  assert (Py.ne (PyFloat 1) (PyFloat 2) = true) as Hne
    by (vm_compute; reflexivity).
  assert ((Alg.defaults ∪ Sim.tiles 1) !! "RESAMPLED"
          = Some (PyStr "resampled.sdat")) as Hout
    by (vm_compute; reflexivity).
  assert (take 1 (polls (trace Sim.qgis (Alg.defaults ∪ Sim.tiles 1)
                           Sim.idle)) = [false]) as Hp
    by (vm_compute; reflexivity).
  assert (Py.assoc "saga:mosaicrasterlayers"
            (outputs (trace Sim.qgis (Alg.defaults ∪ Sim.tiles 1) Sim.idle))
          = Some (PyStr "mosaic.sdat")) as Hv by (vm_compute; reflexivity).
  split; [exact Hog|]. split; [exact Hdg|]. split; [exact Hne|].
  split; [exact Hout|]. split; [exact Hp|]. split; [exact Hv|].
  exact (proj1 (differing_grains_resample Sim.qgis _ Sim.idle _ _ _ _
                  Hog Hdg Hne Hout Hp Hv)).
Defined.
